(** * CLIP inference service ([hf-space-clip-service/app.py])

    A shallow embedding of the FastAPI service: the three module-level
    globals ([model], [processor], [device]), the startup hook [load_model],
    the readiness probe [health_check], the two request handlers
    [embed_text] and [embed_image], and the static endpoints [root] and
    [test_page].

    The handlers are written in a small state-and-exception monad over a
    [World] that holds the globals and a chronological trace of every
    logging call and every call into an external library (torch,
    transformers, PIL, base64).  The libraries themselves are not part of
    the repository: they are collected in the interface [Externals] and
    the definitions and theorems about the service are parametric in it.
    The arithmetic of the normalizer is studied on the float32 instance of
    the two tensor kernels (module [Float32]). *)

From Stdlib Require Import String Ascii List ZArith Lia Bool DecimalString.
From Stdlib Require Import SpecFloat.
Import ListNotations.
Open Scope string_scope.

(** ** Python exceptions and results *)

(** [HTTPException] is the framework's exception (a subclass of
    [Exception]); [Exception msg] stands for every other subclass of
    [Exception], [msg] being what [str(e)] prints.  Exceptions outside
    [Exception] (interrupts, interpreter exit) are caught by no clause of the
    service and are not represented. *)
Inductive exn : Type :=
| HTTPException (status_code : Z) (detail : string)
| Exception (msg : string).

Inductive outcome (A : Type) : Type :=
| Return (a : A)
| Raise (e : exn).
Arguments Return {A} a.
Arguments Raise {A} e.

(** ** Request and response models *)

Record TextEmbeddingRequest : Type := {
  text : string
}.

Record ImageEmbeddingRequest : Type := {
  image : string;      (* base64 encoded image *)
  mime_type : string   (* default "image/jpeg" *)
}.

Definition default_mime_type : string := "image/jpeg".

Record EmbeddingResponse (float : Type) : Type := {
  embedding : list float;
  dimensions : nat
}.
Arguments embedding {float} _.
Arguments dimensions {float} _.

Module HealthResponse.
Record t : Type := mk {
  status : string;
  model_loaded : bool;
  device : string;
  model_name : string
}.
End HealthResponse.

(** Keyword arguments of a call [processor(...)]; [None] is a keyword that
    is not passed. *)
Record ProcessorArgs (Image : Type) : Type := {
  arg_text : option (list string);
  arg_images : option (list Image);
  arg_return_tensors : string;
  arg_padding : option bool;
  arg_truncation : option bool;
  arg_max_length : option nat
}.
Arguments arg_text {Image} _.
Arguments arg_images {Image} _.
Arguments arg_return_tensors {Image} _.
Arguments arg_padding {Image} _.
Arguments arg_truncation {Image} _.
Arguments arg_max_length {Image} _.

(** ** The external libraries *)

(** One field per library function the service calls.  Each is a function
    of its arguments (the model runs in inference mode), and each may raise.
    [float] is the element type of feature tensors; [fdiv] and [l2norm] are
    the tensor kernels behind [/] and [.norm(dim=-1)], which are total on
    floats (a zero divisor gives inf or nan, not an exception). *)
Class Externals : Type := {
  Model : Type;
  Processor : Type;
  BatchEncoding : Type;
  Image : Type;
  float : Type;
  torch_cuda_is_available : outcome bool;
  CLIPProcessor_from_pretrained : string -> outcome Processor;
  CLIPModel_from_pretrained : string -> outcome Model;
  Model_to : Model -> option string -> outcome Model;
  Model_eval : Model -> outcome Model;
  Model_parameters_millions : Model -> outcome string;
  processor_call : Processor -> ProcessorArgs Image -> outcome BatchEncoding;
  BatchEncoding_to : BatchEncoding -> option string -> outcome BatchEncoding;
  get_text_features : Model -> BatchEncoding -> outcome (list (list float));
  get_image_features : Model -> BatchEncoding -> outcome (list (list float));
  fdiv : float -> float -> float;
  l2norm : list float -> float;
  base64_b64decode : string -> outcome (list ascii);
  Image_open : list ascii -> outcome Image;
  Image_convert : Image -> string -> outcome Image;
  Image_size : Image -> nat * nat;
  HTTPException_str : Z -> string -> string
}.

(** Names of the external calls, as they appear in the trace. *)
Inductive Callee : Type :=
| CudaIsAvailable
| ProcessorFromPretrained
| ModelFromPretrained
| ModelTo
| ModelEval
| ModelParameters
| ProcessorCall
| InputsTo
| GetTextFeatures
| GetImageFeatures
| B64Decode
| ImageOpen
| ImageConvert.

Inductive Event : Type :=
| LogInfo (msg : string)
| LogError (msg : string)
| Call (f : Callee).

(** Decimal rendering of a natural number, as in an f-string. *)
Definition str_nat (n : nat) : string := NilZero.string_of_uint (Nat.to_uint n).

Fixpoint str_repeat (s : string) (n : nat) : string :=
  match n with
  | O => ""
  | S n' => s ++ str_repeat s n'
  end.

(** A Python [str] is represented by the string of its UTF-8 bytes; [len]
    and slicing count code points, one per byte that is not a continuation
    byte (a byte of the form 10xxxxxx). *)
Definition is_continuation (c : ascii) : bool :=
  match c with
  | Ascii _ _ _ _ _ _ b6 b7 => b7 && negb b6
  end.

(** [len(s)] *)
Fixpoint py_len (s : string) : nat :=
  match s with
  | EmptyString => 0
  | String c s' => (if is_continuation c then 0 else 1) + py_len s'
  end.

(** [s[:n]]: the first [n] code points of [s], each with its continuation
    bytes. *)
Fixpoint py_take (n : nat) (s : string) : string :=
  match s with
  | EmptyString => EmptyString
  | String c s' =>
    if is_continuation c then String c (py_take n s')
    else match n with
         | O => EmptyString
         | S n' => String c (py_take n' s')
         end
  end.

Section Service.

Context {E : Externals}.

Definition Tensor : Type := list (list float).

(** [str(e)] *)
Definition str_exn (e : exn) : string :=
  match e with
  | HTTPException c d => HTTPException_str c d
  | Exception msg => msg
  end.

(** ** Process state *)

(** The globals of lines 44-46, and the trace of effects so far. *)
Record World : Type := mkWorld {
  model : option Model;
  processor : option Processor;
  device : option string;
  trace : list Event
}.

Definition initial : World :=
  {| model := None; processor := None; device := None; trace := [] |}.

(** The state and exception monad of the handlers. *)
Definition M (A : Type) : Type := World -> outcome A * World.

Definition ret {A} (a : A) : M A := fun w => (Return a, w).

Definition raise {A} (e : exn) : M A := fun w => (Raise e, w).

Definition bind {A B} (m : M A) (k : A -> M B) : M B :=
  fun w =>
    match m w with
    | (Return a, w') => k a w'
    | (Raise e, w') => (Raise e, w')
    end.

(** [try: m  except Exception as e: h e] *)
Definition try_except {A} (m : M A) (h : exn -> M A) : M A :=
  fun w =>
    match m w with
    | (Return a, w') => (Return a, w')
    | (Raise e, w') => h e w'
    end.

Definition log_event (ev : Event) (w : World) : World :=
  {| model := model w; processor := processor w; device := device w;
     trace := trace w ++ [ev] |}.

Definition emit (ev : Event) : M unit := fun w => (Return tt, log_event ev w).

Definition logger_info (msg : string) : M unit := emit (LogInfo msg).
Definition logger_error (msg : string) : M unit := emit (LogError msg).

(** A call into a library: it is recorded, then returns or raises. *)
Definition call {A} (f : Callee) (r : outcome A) : M A :=
  fun w => (r, log_event (Call f) w).

Definition get_model : M (option Model) := fun w => (Return (model w), w).
Definition get_processor : M (option Processor) := fun w => (Return (processor w), w).
Definition get_device : M (option string) := fun w => (Return (device w), w).

Definition set_model (m : option Model) : M unit :=
  fun w => (Return tt, {| model := m; processor := processor w;
                          device := device w; trace := trace w |}).
Definition set_processor (p : option Processor) : M unit :=
  fun w => (Return tt, {| model := model w; processor := p;
                          device := device w; trace := trace w |}).
Definition set_device (d : option string) : M unit :=
  fun w => (Return tt, {| model := model w; processor := processor w;
                          device := d; trace := trace w |}).

End Service.

Declare Scope py_scope.
Delimit Scope py_scope with py.
Notation "x <- m ;; k" := (bind m (fun x => k))
  (at level 61, m at next level, right associativity) : py_scope.
Notation "m ;; k" := (bind m (fun _ => k))
  (at level 61, right associativity) : py_scope.
Open Scope py_scope.

Section Operations.

Context {E : Externals}.

Definition MODEL_NAME : string := "openai/clip-vit-base-patch32".

(** [str(device)] for a value of the global [device]. *)
Definition str_device (d : option string) : string :=
  match d with
  | Some s => s
  | None => "None"
  end.

(** ** Startup: [load_model] (lines 68-96) *)

(** ["cuda" if torch.cuda.is_available() else "cpu"] *)
Definition device_name (cuda : bool) : string :=
  if cuda then "cuda" else "cpu".

Definition load_model : M unit :=
  logger_info (str_repeat "=" 60) ;;
  logger_info "Loading CLIP model..." ;;
  logger_info (str_repeat "=" 60) ;;
  try_except
    (cuda <- call CudaIsAvailable torch_cuda_is_available ;;
     set_device (Some (device_name cuda)) ;;
     d <- get_device ;;
     logger_info ("Using device: " ++ str_device d) ;;
     let model_name := MODEL_NAME in
     logger_info ("Loading model: " ++ model_name) ;;
     p <- call ProcessorFromPretrained (CLIPProcessor_from_pretrained model_name) ;;
     set_processor (Some p) ;;
     m0 <- call ModelFromPretrained (CLIPModel_from_pretrained model_name) ;;
     d <- get_device ;;
     m <- call ModelTo (Model_to m0 d) ;;
     set_model (Some m) ;;
     (* model.eval() changes the object the global already refers to *)
     m' <- call ModelEval (Model_eval m) ;;
     set_model (Some m') ;;
     logger_info "✅ CLIP model loaded successfully!" ;;
     n <- call ModelParameters (Model_parameters_millions m') ;;
     logger_info ("Model parameters: ~" ++ n ++ "M") ;;
     logger_info (str_repeat "=" 60))
    (fun e =>
       logger_error ("❌ Failed to load CLIP model: " ++ str_exn e) ;;
       raise e).

(** ** Readiness probe: [health_check] (lines 114-122) *)

Definition is_some {A} (o : option A) : bool :=
  match o with Some _ => true | None => false end.

(** Truthiness of the global [device]: [None] and the empty string are falsy. *)
Definition truthy (d : option string) : bool :=
  match d with
  | Some s => negb (String.eqb s "")
  | None => false
  end.

Definition health_check : M HealthResponse.t :=
  m <- get_model ;;
  d <- get_device ;;
  ret {| HealthResponse.status := if is_some m then "healthy" else "unhealthy";
         HealthResponse.model_loaded := is_some m;
         HealthResponse.device := if truthy d then str_device d else "unknown";
         HealthResponse.model_name := MODEL_NAME |}.

(** ** Embedding normalizer (lines 154 and 205) *)

(** [t.norm(dim=-1, keepdim=True)]: one norm per row, kept as a row of
    length one. *)
Definition norm_keepdim (t : Tensor) : Tensor :=
  map (fun row => [l2norm row]) t.

(** [a / n] for [a] of shape (b, d) and [n] of shape (b, 1): the single
    element of each row of [n] is broadcast along the row of [a]. *)
Fixpoint tensor_div (a n : Tensor) : Tensor :=
  match a, n with
  | row :: a', [s] :: n' => map (fun x => fdiv x s) row :: tensor_div a' n'
  | _, _ => []
  end.

(** [t.cpu().numpy()[0].tolist()] *)
Definition item0_tolist (t : Tensor) : M (list float) :=
  match t with
  | row :: _ => ret row
  | [] => raise (Exception "index 0 is out of bounds for axis 0 with size 0")
  end.

(** ** [embed_text] (lines 124-167) *)

Definition embed_text (request : TextEmbeddingRequest)
  : M (EmbeddingResponse float) :=
  m <- get_model ;;
  p <- get_processor ;;
  match m, p with
  | Some mdl, Some proc =>
    try_except
      (let txt := text request in
       logger_info ("[TEXT] Embedding: '" ++ py_take 50 txt ++ "...'") ;;
       (* with torch.no_grad(): *)
       enc <- call ProcessorCall
                (processor_call proc
                   {| arg_text := Some [txt];
                      arg_images := None;
                      arg_return_tensors := "pt";
                      arg_padding := Some true;
                      arg_truncation := Some true;
                      arg_max_length := Some 77 |}) ;;
       d <- get_device ;;
       inputs <- call InputsTo (BatchEncoding_to enc d) ;;
       text_features <- call GetTextFeatures (get_text_features mdl inputs) ;;
       let text_features := tensor_div text_features (norm_keepdim text_features) in
       embedding <- item0_tolist text_features ;;
       logger_info ("[TEXT] ✅ Generated " ++ str_nat (length embedding)
                    ++ "D embedding") ;;
       ret {| embedding := embedding; dimensions := length embedding |})
      (fun e =>
         logger_error ("[TEXT] ❌ Error: " ++ str_exn e) ;;
         raise (HTTPException 500
                  ("Embedding generation failed: " ++ str_exn e)))
  | _, _ => raise (HTTPException 503 "Model not loaded")
  end.

(** ** [embed_image] (lines 169-220) *)

(** [str(image.size)], a pair of integers. *)
Definition str_size (sz : nat * nat) : string :=
  "(" ++ str_nat (fst sz) ++ ", " ++ str_nat (snd sz) ++ ")".

(** The inner [try] block of lines 187-192: every exception of the decoding
    steps is turned into a 400. *)
Definition decode_image (base64_image : string) : M Image :=
  try_except
    (image_bytes <- call B64Decode (base64_b64decode base64_image) ;;
     opened <- call ImageOpen (Image_open image_bytes) ;;
     img <- call ImageConvert (Image_convert opened "RGB") ;;
     logger_info ("[IMAGE] Image size: " ++ str_size (Image_size img)) ;;
     ret img)
    (fun e =>
       raise (HTTPException 400 ("Invalid image data: " ++ str_exn e))).

Definition embed_image (request : ImageEmbeddingRequest)
  : M (EmbeddingResponse float) :=
  m <- get_model ;;
  p <- get_processor ;;
  match m, p with
  | Some mdl, Some proc =>
    try_except
      (let base64_image := image request in
       logger_info ("[IMAGE] Processing image (~"
                    ++ str_nat (py_len base64_image / 1024)
                    ++ "KB base64)") ;;
       img <- decode_image base64_image ;;
       (* with torch.no_grad(): *)
       enc <- call ProcessorCall
                (processor_call proc
                   {| arg_text := None;
                      arg_images := Some [img];
                      arg_return_tensors := "pt";
                      arg_padding := None;
                      arg_truncation := None;
                      arg_max_length := None |}) ;;
       d <- get_device ;;
       inputs <- call InputsTo (BatchEncoding_to enc d) ;;
       image_features <- call GetImageFeatures (get_image_features mdl inputs) ;;
       let image_features :=
         tensor_div image_features (norm_keepdim image_features) in
       embedding <- item0_tolist image_features ;;
       logger_info ("[IMAGE] ✅ Generated " ++ str_nat (length embedding)
                    ++ "D embedding") ;;
       ret {| embedding := embedding; dimensions := length embedding |})
      (fun e =>
         match e with
         | HTTPException _ _ => raise e
         | Exception _ =>
           logger_error ("[IMAGE] ❌ Error: " ++ str_exn e) ;;
           raise (HTTPException 500
                    ("Embedding generation failed: " ++ str_exn e))
         end)
  | _, _ => raise (HTTPException 503 "Model not loaded")
  end.

End Operations.

(** ** Vocabulary of the properties *)

Section Vocabulary.

Context {E : Externals}.

(** The guard of lines 133 and 179 fails: a handle is missing. *)
Definition not_loaded (w : World) : Prop :=
  model w = None \/ processor w = None.

(** The guard passes. *)
Definition ready (w : World) : Prop :=
  model w <> None /\ processor w <> None.

(** Two worlds with the same globals (their traces may differ). *)
Definition same_globals (w w' : World) : Prop :=
  model w = model w' /\ processor w = processor w' /\ device w = device w'.

(** The states a process can be in: it starts with the three globals unset
    and runs the startup hook and the handlers, whatever their outcome.
    ([root] and [test_page] return constants and touch no global.) *)
Inductive reachable : World -> Prop :=
| reach_initial : reachable initial
| reach_load_model w : reachable w -> reachable (snd (load_model w))
| reach_health_check w : reachable w -> reachable (snd (health_check w))
| reach_embed_text w r : reachable w -> reachable (snd (embed_text r w))
| reach_embed_image w r : reachable w -> reachable (snd (embed_image r w)).

(** The string [s] does not decode into an RGB image, and [e] is the
    exception that says so: base64 decoding raises, or opening the decoded
    bytes raises, or loading the pixels for the RGB conversion raises. *)
Inductive undecodable (s : string) (e : exn) : Prop :=
| bad_base64 :
    base64_b64decode s = Raise e -> undecodable s e
| bad_image_bytes bs :
    base64_b64decode s = Return bs ->
    Image_open bs = Raise e -> undecodable s e
| bad_pixel_data bs im :
    base64_b64decode s = Return bs ->
    Image_open bs = Return im ->
    Image_convert im "RGB" = Raise e -> undecodable s e.

(** A step of the startup load raises [e]: device selection, processor
    load, or model load (fetching the weights or moving them to the
    device). *)
Inductive load_step_fails (e : exn) : Prop :=
| fails_device_selection :
    torch_cuda_is_available = Raise e -> load_step_fails e
| fails_processor_load cuda :
    torch_cuda_is_available = Return cuda ->
    CLIPProcessor_from_pretrained MODEL_NAME = Raise e -> load_step_fails e
| fails_model_load cuda p :
    torch_cuda_is_available = Return cuda ->
    CLIPProcessor_from_pretrained MODEL_NAME = Return p ->
    CLIPModel_from_pretrained MODEL_NAME = Raise e -> load_step_fails e
| fails_model_to cuda p m0 :
    torch_cuda_is_available = Return cuda ->
    CLIPProcessor_from_pretrained MODEL_NAME = Return p ->
    CLIPModel_from_pretrained MODEL_NAME = Return m0 ->
    Model_to m0 (Some (device_name cuda)) = Raise e -> load_step_fails e.



(** The model handle is published together with the other two globals. *)
Definition triple_published (w : World) : Prop :=
  model w <> None -> processor w <> None /\ device w <> None.

(** One normalized row: every element divided by the norm of the row. *)
Definition normalize_row (row : list float) : list float :=
  map (fun x => fdiv x (l2norm row)) row.

End Vocabulary.

(** ** A small concrete instance of the libraries

    Used to run the handlers on concrete requests.  It is a stand-in, not
    CLIP: tensors hold integers, the norm of a row is its largest absolute
    value, a quotient is given in thousandths, an image is its byte string,
    and the decoder rejects strings whose length is not a multiple of
    four. *)

Definition toy_l2norm (row : list Z) : Z :=
  fold_right (fun x acc => Z.max (Z.abs x) acc) 0%Z row.

Definition toy_fdiv (x n : Z) : Z := (1000 * x / n)%Z.

Definition toy_b64decode (s : string) : outcome (list ascii) :=
  if Nat.eqb (Nat.modulo (String.length s) 4) 0
  then Return (list_ascii_of_string s)
  else Raise (Exception "Incorrect padding").

Definition toy_Image_open (bs : list ascii) : outcome (list ascii) :=
  match bs with
  | [] => Raise (Exception "cannot identify image file")
  | _ => Return bs
  end.

Definition toy_processor_call (p : unit) (a : ProcessorArgs (list ascii))
  : outcome (list nat) :=
  match arg_text a, arg_images a with
  | Some [t], None => Return (map nat_of_ascii (list_ascii_of_string t))
  | None, Some [i] => Return (map nat_of_ascii i)
  | _, _ => Raise (Exception "You have to specify either text or images")
  end.

Definition toy_features (m : unit) (enc : list nat) : outcome (list (list Z)) :=
  Return [map (fun n => 2 * Z.of_nat n)%Z enc].

Definition toy : Externals := {|
  Model := unit;
  Processor := unit;
  BatchEncoding := list nat;
  Image := list ascii;
  float := Z;
  torch_cuda_is_available := Return false;
  CLIPProcessor_from_pretrained := fun _ => Return tt;
  CLIPModel_from_pretrained := fun _ => Return tt;
  Model_to := fun m _ => Return m;
  Model_eval := fun m => Return m;
  Model_parameters_millions := fun _ => Return "151.3";
  processor_call := toy_processor_call;
  BatchEncoding_to := fun enc _ => Return enc;
  get_text_features := toy_features;
  get_image_features := toy_features;
  fdiv := toy_fdiv;
  l2norm := toy_l2norm;
  base64_b64decode := toy_b64decode;
  Image_open := toy_Image_open;
  Image_convert := fun i _ => Return i;
  Image_size := fun i => (length i, 1);
  HTTPException_str := fun c d => d
|}.

(** The same libraries on a host where the preprocessor cannot be fetched. *)
Definition toy_offline : Externals := {|
  Model := unit;
  Processor := unit;
  BatchEncoding := list nat;
  Image := list ascii;
  float := Z;
  torch_cuda_is_available := Return false;
  CLIPProcessor_from_pretrained := fun _ => Raise (Exception "Connection error");
  CLIPModel_from_pretrained := fun _ => Return tt;
  Model_to := fun m _ => Return m;
  Model_eval := fun m => Return m;
  Model_parameters_millions := fun _ => Return "151.3";
  processor_call := toy_processor_call;
  BatchEncoding_to := fun enc _ => Return enc;
  get_text_features := toy_features;
  get_image_features := toy_features;
  fdiv := toy_fdiv;
  l2norm := toy_l2norm;
  base64_b64decode := toy_b64decode;
  Image_open := toy_Image_open;
  Image_convert := fun i _ => Return i;
  Image_size := fun i => (length i, 1);
  HTTPException_str := fun c d => d
|}.


(** The world after a successful startup on [toy]. *)
Definition toy_ready : World (E := toy) := snd (load_model (E := toy) initial).

(** ** Static endpoints: [root] (lines 98-112) and [test_page] (lines 223-238) *)

(** The dictionaries the two endpoints return. *)
Unset Elimination Schemes.
Inductive json : Type :=
| JString (s : string)
| JInt (n : Z)
| JObject (fields : list (string * json)).
Set Elimination Schemes.

(** [d.get(k)] on the fields of a dictionary. *)
Fixpoint fields_get (k : string) (fields : list (string * json)) : option json :=
  match fields with
  | [] => None
  | (k', v) :: rest => if String.eqb k k' then Some v else fields_get k rest
  end.

Definition json_get (k : string) (j : json) : option json :=
  match j with
  | JObject fields => fields_get k fields
  | _ => None
  end.

(** The route table built by the decorators of lines 98, 114, 124, 169 and
    223: method, path and the name of the handler. *)
Definition routes : list (string * string * string) :=
  [ ("GET", "/", "root");
    ("GET", "/health", "health_check");
    ("POST", "/embed/text", "embed_text");
    ("POST", "/embed/image", "embed_image");
    ("GET", "/test", "test_page") ].

Definition registered (method path : string) : bool :=
  existsb (fun r => String.eqb (fst (fst r)) method && String.eqb (snd (fst r)) path)
          routes.

Section StaticEndpoints.

Context {E : Externals}.

Definition root : M json :=
  ret (JObject
         [ ("service", JString "CLIP Inference API");
           ("version", JString "1.0.0");
           ("model", JString "openai/clip-vit-base-patch32");
           ("dimensions", JInt 512);
           ("endpoints",
            JObject [ ("health", JString "GET /health");
                      ("embed_text", JString "POST /embed/text");
                      ("embed_image", JString "POST /embed/image") ]);
           ("docs", JString "/docs") ]).

Definition test_page : M json :=
  ret (JObject
         [ ("message",
            JString "Use the /docs endpoint to test the API interactively");
           ("example_text",
            JObject [ ("endpoint", JString "/embed/text");
                      ("method", JString "POST");
                      ("body", JObject [ ("text", JString "a photo of a dog") ]) ]);
           ("example_image",
            JObject [ ("endpoint", JString "/embed/image");
                      ("method", JString "POST");
                      ("body",
                       JObject [ ("image", JString "base64_encoded_image_data") ]) ]) ]).

(** The example of [test_page] under key [k] names a registered route. *)
Definition example_registered (k : string) (page : json) : bool :=
  match json_get k page with
  | Some ex =>
    match json_get "method" ex, json_get "endpoint" ex with
    | Some (JString m), Some (JString p) => registered m p
    | _, _ => false
    end
  | None => false
  end.

(** Every entry of a dictionary of endpoints is "METHOD path" for a
    registered route. *)
Definition endpoint_registered (v : json) : bool :=
  match v with
  | JString s =>
    existsb (fun r => String.eqb s (fst (fst r) ++ " " ++ snd (fst r))) routes
  | _ => false
  end.

End StaticEndpoints.

(** ** Vocabulary of the traces and of inference failures *)

(** The library calls among a list of events, in order. *)
Definition calls_of (evs : list Event) : list Callee :=
  flat_map (fun ev => match ev with Call f => [f] | _ => [] end) evs.

(** The error log lines among a list of events. *)
Definition errors_of (evs : list Event) : list string :=
  flat_map (fun ev => match ev with LogError msg => [msg] | _ => [] end) evs.

(** The library calls of each operation, in the order of the source. *)
Definition load_calls : list Callee :=
  [CudaIsAvailable; ProcessorFromPretrained; ModelFromPretrained;
   ModelTo; ModelEval; ModelParameters].

Definition text_calls : list Callee :=
  [ProcessorCall; InputsTo; GetTextFeatures].

Definition decode_calls : list Callee :=
  [B64Decode; ImageOpen; ImageConvert].

Definition image_calls : list Callee :=
  (decode_calls ++ [ProcessorCall; InputsTo; GetImageFeatures])%list.

Section Failures.

Context {E : Externals}.

(** The run from [w] to [w'] appended exactly the events [evs]. *)
Definition appended (w w' : World) (evs : list Event) : Prop :=
  trace w' = (trace w ++ evs)%list.

(** The keyword arguments of lines 143-148 and of lines 197-199. *)
Definition text_args (txt : string) : ProcessorArgs Image :=
  {| arg_text := Some [txt]; arg_images := None;
     arg_return_tensors := "pt"; arg_padding := Some true;
     arg_truncation := Some true; arg_max_length := Some 77 |}.

Definition image_args (img : Image) : ProcessorArgs Image :=
  {| arg_text := None; arg_images := Some [img];
     arg_return_tensors := "pt"; arg_padding := None;
     arg_truncation := None; arg_max_length := None |}.

Definition empty_batch_error : exn :=
  Exception "index 0 is out of bounds for axis 0 with size 0".

(** A step of the text path raises [e]: preprocessing, the move to the
    device, the text encoder, or the indexing of an empty batch. *)
Inductive text_inference_fails
    (mdl : Model) (proc : Processor) (d : option string) (txt : string)
    (e : exn) : Prop :=
| text_fails_processor :
    processor_call proc (text_args txt) = Raise e ->
    text_inference_fails mdl proc d txt e
| text_fails_to enc :
    processor_call proc (text_args txt) = Return enc ->
    BatchEncoding_to enc d = Raise e ->
    text_inference_fails mdl proc d txt e
| text_fails_model enc inputs :
    processor_call proc (text_args txt) = Return enc ->
    BatchEncoding_to enc d = Return inputs ->
    get_text_features mdl inputs = Raise e ->
    text_inference_fails mdl proc d txt e
| text_fails_empty_batch enc inputs :
    processor_call proc (text_args txt) = Return enc ->
    BatchEncoding_to enc d = Return inputs ->
    get_text_features mdl inputs = Return [] ->
    e = empty_batch_error ->
    text_inference_fails mdl proc d txt e.

(** The string [s] decodes to the RGB image [img]. *)
Definition decodes (s : string) (img : Image) : Prop :=
  exists bs opened,
    base64_b64decode s = Return bs /\
    Image_open bs = Return opened /\
    Image_convert opened "RGB" = Return img.

(** A step of the image path after decoding raises [e]. *)
Inductive image_inference_fails
    (mdl : Model) (proc : Processor) (d : option string) (img : Image)
    (e : exn) : Prop :=
| image_fails_processor :
    processor_call proc (image_args img) = Raise e ->
    image_inference_fails mdl proc d img e
| image_fails_to enc :
    processor_call proc (image_args img) = Return enc ->
    BatchEncoding_to enc d = Raise e ->
    image_inference_fails mdl proc d img e
| image_fails_model enc inputs :
    processor_call proc (image_args img) = Return enc ->
    BatchEncoding_to enc d = Return inputs ->
    get_image_features mdl inputs = Raise e ->
    image_inference_fails mdl proc d img e
| image_fails_empty_batch enc inputs :
    processor_call proc (image_args img) = Return enc ->
    BatchEncoding_to enc d = Return inputs ->
    get_image_features mdl inputs = Return [] ->
    e = empty_batch_error ->
    image_inference_fails mdl proc d img e.

(** What the outer handler of [embed_image] (lines 216-220) raises for an
    exception [e] of the processing stage. *)
Definition image_error (e : exn) : exn :=
  match e with
  | HTTPException _ _ => e
  | Exception _ =>
    HTTPException 500 ("Embedding generation failed: " ++ str_exn e)
  end.

(** How many steps of each operation return, in the order of the source,
    before one raises (all of them when none does). *)
Definition text_steps_returned
    (mdl : Model) (proc : Processor) (d : option string) (txt : string) : nat :=
  match processor_call proc (text_args txt) with
  | Raise _ => 0
  | Return enc =>
    match BatchEncoding_to enc d with
    | Raise _ => 1
    | Return inputs =>
      match get_text_features mdl inputs with
      | Raise _ => 2
      | Return _ => 3
      end
    end
  end.

Definition image_steps_returned
    (mdl : Model) (proc : Processor) (d : option string) (s : string) : nat :=
  match base64_b64decode s with
  | Raise _ => 0
  | Return bs =>
    match Image_open bs with
    | Raise _ => 1
    | Return opened =>
      match Image_convert opened "RGB" with
      | Raise _ => 2
      | Return img =>
        match processor_call proc (image_args img) with
        | Raise _ => 3
        | Return enc =>
          match BatchEncoding_to enc d with
          | Raise _ => 4
          | Return inputs =>
            match get_image_features mdl inputs with
            | Raise _ => 5
            | Return _ => 6
            end
          end
        end
      end
    end
  end.

Definition load_steps_returned : nat :=
  match torch_cuda_is_available with
  | Raise _ => 0
  | Return cuda =>
    match CLIPProcessor_from_pretrained MODEL_NAME with
    | Raise _ => 1
    | Return _ =>
      match CLIPModel_from_pretrained MODEL_NAME with
      | Raise _ => 2
      | Return m0 =>
        match Model_to m0 (Some (device_name cuda)) with
        | Raise _ => 3
        | Return m =>
          match Model_eval m with
          | Raise _ => 4
          | Return m' =>
            match Model_parameters_millions m' with
            | Raise _ => 5
            | Return _ => 6
            end
          end
        end
      end
    end
  end.

(** The values the global [device] takes. *)
Definition device_known (d : option string) : Prop :=
  d = None \/ d = Some "cpu" \/ d = Some "cuda".

End Failures.

(** The libraries of [toy] with encoders that run out of memory. *)
Definition toy_out_of_memory : Externals := {|
  Model := unit;
  Processor := unit;
  BatchEncoding := list nat;
  Image := list ascii;
  float := Z;
  torch_cuda_is_available := Return false;
  CLIPProcessor_from_pretrained := fun _ => Return tt;
  CLIPModel_from_pretrained := fun _ => Return tt;
  Model_to := fun m _ => Return m;
  Model_eval := fun m => Return m;
  Model_parameters_millions := fun _ => Return "151.3";
  processor_call := toy_processor_call;
  BatchEncoding_to := fun enc _ => Return enc;
  get_text_features := fun _ _ => Raise (Exception "out of memory");
  get_image_features := fun _ _ => Raise (Exception "out of memory");
  fdiv := toy_fdiv;
  l2norm := toy_l2norm;
  base64_b64decode := toy_b64decode;
  Image_open := toy_Image_open;
  Image_convert := fun i _ => Return i;
  Image_size := fun i => (length i, 1);
  HTTPException_str := fun c d => d
|}.

Definition toy_oom_ready : World (E := toy_out_of_memory) :=
  snd (load_model (E := toy_out_of_memory) initial).

(** ** The tensor kernels in float32

    Feature tensors hold IEEE 754 binary32 numbers (24 bits of precision,
    exponents up to 128).  Division, multiplication, addition and square
    root are the correctly rounded operations of the standard; the norm of
    a row is the square root of the sum of the squares, every operation
    rounded to float32 and the sum taken from left to right. *)

Module Float32.

Definition prec : Z := 24%Z.
Definition emax : Z := 128%Z.

Definition zero : spec_float := S754_zero false.


Definition add : spec_float -> spec_float -> spec_float := SFadd prec emax.
Definition mul : spec_float -> spec_float -> spec_float := SFmul prec emax.
Definition sqrt : spec_float -> spec_float := SFsqrt prec emax.


(** [row.norm()] *)
Definition l2norm (row : list spec_float) : spec_float :=
  sqrt (fold_left (fun acc x => add acc (mul x x)) row zero).


End Float32.




(** * Properties *)

Ltac unfold_py :=
  unfold embed_text, embed_image, decode_image, load_model, health_check,
    item0_tolist, bind, try_except, call, logger_info, logger_error, emit,
    ret, raise, get_model, get_processor, get_device, set_model,
    set_processor, set_device in *.

Ltac case_outcome :=
  match goal with
  | |- context [match ?r with Return _ => _ | Raise _ => _ end] =>
      destruct r eqn:?; simpl
  | |- context [match ?l with [] => _ | _ :: _ => _ end] =>
      destruct l eqn:?; simpl
  | |- context [match ?e with HTTPException _ _ => _ | Exception _ => _ end] =>
      destruct e eqn:?; simpl
  end.

Section Properties.

Context {E : Externals}.

(** *** The readiness guard *)

Lemma ready_or_not (w : World) : ready w \/ not_loaded w.
Proof.
  unfold ready, not_loaded.
  destruct (model w); destruct (processor w); auto;
    left; split; discriminate.
Qed.

Lemma ready_handles (w : World) :
  ready w -> exists mdl proc, model w = Some mdl /\ processor w = Some proc.
Proof.
  intros [Hm Hp].
  destruct (model w) as [mdl|]; [|congruence].
  destruct (processor w) as [proc|]; [|congruence].
  eauto.
Qed.

(** C2. In a state where the model handle or the processor handle is null,
    [embed_text] and [embed_image] raise the 503 condition "Model not
    loaded" and leave the world as it was: the trace gains no entry, so no
    library was called (no decoding, no preprocessing, no model
    invocation) and nothing was logged. *)
Theorem not_loaded_gives_503 (w : World)
    (rt : TextEmbeddingRequest) (ri : ImageEmbeddingRequest) :
  not_loaded w ->
  embed_text rt w = (Raise (HTTPException 503 "Model not loaded"), w) /\
  embed_image ri w = (Raise (HTTPException 503 "Model not loaded"), w).
Proof.
  intros Hnl. unfold_py. simpl.
  destruct Hnl as [Hm | Hp].
  - rewrite Hm. split; reflexivity.
  - rewrite Hp. destruct (model w); split; reflexivity.
Qed.

(** *** The handlers only read the globals *)

Lemma same_globals_refl (w : World) : same_globals w w.
Proof. repeat split. Qed.

Lemma same_globals_trans (w1 w2 w3 : World) :
  same_globals w1 w2 -> same_globals w2 w3 -> same_globals w1 w3.
Proof.
  intros (? & ? & ?) (? & ? & ?). repeat split; congruence.
Qed.

Lemma embed_text_keeps_globals (r : TextEmbeddingRequest) (w : World) :
  same_globals w (snd (embed_text r w)).
Proof.
  destruct w as [m p d t]. unfold_py. simpl.
  destruct m; destruct p; simpl; try apply same_globals_refl.
  repeat case_outcome; repeat split.
Qed.

Lemma embed_image_keeps_globals (r : ImageEmbeddingRequest) (w : World) :
  same_globals w (snd (embed_image r w)).
Proof.
  destruct w as [m p d t]. unfold_py. simpl.
  destruct m; destruct p; simpl; try apply same_globals_refl.
  repeat case_outcome; repeat split.
Qed.

Lemma health_check_keeps_world (w : World) : snd (health_check w) = w.
Proof. reflexivity. Qed.

(** The outcome of a handler is a function of the request and the globals;
    the trace (what was logged and called before) has no influence. *)
Lemma embed_text_reads_globals (r : TextEmbeddingRequest) (w w' : World) :
  same_globals w w' -> fst (embed_text r w) = fst (embed_text r w').
Proof.
  destruct w as [m p d t], w' as [m' p' d' t'].
  intros (Hm & Hp & Hd). simpl in *. subst m' p' d'.
  unfold_py. simpl.
  destruct m; destruct p; simpl; try reflexivity.
  repeat case_outcome; reflexivity.
Qed.

Lemma embed_image_reads_globals (r : ImageEmbeddingRequest) (w w' : World) :
  same_globals w w' -> fst (embed_image r w) = fst (embed_image r w').
Proof.
  destruct w as [m p d t], w' as [m' p' d' t'].
  intros (Hm & Hp & Hd). simpl in *. subst m' p' d'.
  unfold_py. simpl.
  destruct m; destruct p; simpl; try reflexivity.
  repeat case_outcome; reflexivity.
Qed.

(** C8. [embed_text] is deterministic, the libraries being functions of
    their arguments: a call leaves the three globals as they were, its
    outcome depends on the request and the globals only, and therefore a
    second call with the same text, made after the first, has the same
    outcome (the same embedding vector, or the same error). *)
Theorem embed_text_deterministic (r : TextEmbeddingRequest) (w : World) :
  let first := embed_text r w in
  let second := embed_text r (snd first) in
  same_globals w (snd first) /\
  fst second = fst first /\
  (forall v, fst first = Return v ->
             exists v', fst second = Return v' /\
                        embedding v' = embedding v).
Proof.
  intros first second.
  assert (Hg : same_globals w (snd first)) by apply embed_text_keeps_globals.
  assert (Heq : fst second = fst first).
  { symmetry. apply embed_text_reads_globals. exact Hg. }
  repeat split; try apply Hg; try exact Heq.
  intros v Hv. exists v. split; [congruence | reflexivity].
Qed.

(** *** The normalizer inside the handlers *)

Lemma tensor_div_norm_keepdim (t : Tensor) :
  tensor_div t (norm_keepdim t) = map normalize_row t.
Proof.
  induction t as [| row t IH]; simpl.
  - reflexivity.
  - rewrite IH. reflexivity.
Qed.

Lemma normalize_row_length (row : list float) :
  length (normalize_row row) = length row.
Proof. unfold normalize_row. apply length_map. Qed.

(** When every library call succeeds, the embedding returned by
    [embed_text] is the first row of the raw text features, each element
    divided by the norm of that row, and [dimensions] is its length. *)
Lemma embed_text_returns_normalized_row
    (r : TextEmbeddingRequest) (w : World) mdl proc enc inputs row rest :
  model w = Some mdl ->
  processor w = Some proc ->
  processor_call proc
    {| arg_text := Some [text r]; arg_images := None;
       arg_return_tensors := "pt"; arg_padding := Some true;
       arg_truncation := Some true; arg_max_length := Some 77 |}
  = Return enc ->
  BatchEncoding_to enc (device w) = Return inputs ->
  get_text_features mdl inputs = Return (row :: rest) ->
  fst (embed_text r w)
  = Return {| embedding := normalize_row row; dimensions := length row |}.
Proof.
  intros Hm Hp Henc Hto Hfeat.
  unfold_py. simpl. rewrite Hm, Hp. simpl.
  rewrite Henc. simpl. rewrite Hto. simpl. rewrite Hfeat. simpl.
  fold (normalize_row row). rewrite normalize_row_length. reflexivity.
Qed.

(** The same for [embed_image], once the image has decoded to [img]. *)
Lemma embed_image_returns_normalized_row
    (r : ImageEmbeddingRequest) (w : World)
    mdl proc bs opened img enc inputs row rest :
  model w = Some mdl ->
  processor w = Some proc ->
  base64_b64decode (image r) = Return bs ->
  Image_open bs = Return opened ->
  Image_convert opened "RGB" = Return img ->
  processor_call proc
    {| arg_text := None; arg_images := Some [img];
       arg_return_tensors := "pt"; arg_padding := None;
       arg_truncation := None; arg_max_length := None |}
  = Return enc ->
  BatchEncoding_to enc (device w) = Return inputs ->
  get_image_features mdl inputs = Return (row :: rest) ->
  fst (embed_image r w)
  = Return {| embedding := normalize_row row; dimensions := length row |}.
Proof.
  intros Hm Hp Hdec Hopen Hconv Henc Hto Hfeat.
  unfold_py. simpl. rewrite Hm, Hp. simpl.
  rewrite Hdec. simpl. rewrite Hopen. simpl. rewrite Hconv. simpl.
  rewrite Henc. simpl. rewrite Hto. simpl. rewrite Hfeat. simpl.
  fold (normalize_row row). rewrite normalize_row_length. reflexivity.
Qed.

(** Whatever the libraries do, a handler returns a response or raises an
    [HTTPException]: no other exception leaves it. *)
Lemma embed_text_raises_http_only (r : TextEmbeddingRequest) (w : World) msg :
  fst (embed_text r w) <> Raise (Exception msg).
Proof.
  destruct w as [m p d t]. unfold_py. simpl.
  destruct m; destruct p; simpl; try discriminate.
  repeat case_outcome; discriminate.
Qed.

Lemma embed_image_raises_http_only (r : ImageEmbeddingRequest) (w : World) msg :
  fst (embed_image r w) <> Raise (Exception msg).
Proof.
  destruct w as [m p d t]. unfold_py. simpl.
  destruct m; destruct p; simpl; try discriminate.
  repeat case_outcome; discriminate.
Qed.

(** *** Decoding failures *)

(** What [embed_image] does with an image string that does not decode, in
    a state that passes the guard: the exception of the decoding step is
    wrapped in a 400 by the inner handler and re-raised untouched by the
    outer one. *)
Lemma embed_image_undecodable (r : ImageEmbeddingRequest) (w : World) (e : exn) :
  ready w ->
  undecodable (image r) e ->
  fst (embed_image r w)
  = Raise (HTTPException 400 ("Invalid image data: " ++ str_exn e)).
Proof.
  intros Hr Hu.
  destruct (ready_handles w Hr) as (mdl & proc & Hm & Hp).
  unfold_py. simpl. rewrite Hm, Hp. simpl.
  destruct Hu as [H1 | bs H1 H2 | bs im H1 H2 H3].
  - rewrite H1. reflexivity.
  - rewrite H1. simpl. rewrite H2. reflexivity.
  - rewrite H1. simpl. rewrite H2. simpl. rewrite H3. reflexivity.
Qed.

(** C3, amended. In a state that passes the readiness guard, an image
    request whose image field does not decode (base64 decoding raises, or
    the decoded bytes do not open as an image, or their pixel data cannot
    be converted to RGB) makes [embed_image] raise the 400 condition, with
    the detail "Invalid image data: " followed by the text of the decoding
    error.  The result is an [HTTPException], so the request does not crash
    the process, and it is not the 500 condition: the outer handler
    re-raises the 400 as it is.  The globals are unchanged. *)
Theorem undecodable_image_gives_400
    (r : ImageEmbeddingRequest) (w : World) (e : exn) :
  ready w ->
  undecodable (image r) e ->
  fst (embed_image r w)
  = Raise (HTTPException 400 ("Invalid image data: " ++ str_exn e)) /\
  (forall d, fst (embed_image r w) <> Raise (HTTPException 500 d)) /\
  (forall msg, fst (embed_image r w) <> Raise (Exception msg)) /\
  same_globals w (snd (embed_image r w)).
Proof.
  intros Hr Hu.
  pose proof (embed_image_undecodable r w e Hr Hu) as H.
  rewrite H. repeat split; try discriminate;
    apply embed_image_keeps_globals.
Qed.

(** C10. In a state that passes the readiness guard, the request whose
    image field is the empty string makes [embed_image] raise the 400
    condition, given the behaviour of the two libraries on empty input:
    [base64.b64decode] of the empty string returns no bytes, and
    [Image.open] raises on an empty byte sequence.  It is not the 500
    condition and not an exception other than [HTTPException]. *)
Theorem empty_image_gives_400 (w : World) (mt : string) (e : exn) :
  ready w ->
  base64_b64decode "" = Return [] ->
  Image_open [] = Raise e ->
  let r := {| image := ""; mime_type := mt |} in
  fst (embed_image r w)
  = Raise (HTTPException 400 ("Invalid image data: " ++ str_exn e)) /\
  (forall d, fst (embed_image r w) <> Raise (HTTPException 500 d)) /\
  (forall msg, fst (embed_image r w) <> Raise (Exception msg)).
Proof.
  intros Hr Hdec Hopen r.
  assert (H : fst (embed_image r w)
              = Raise (HTTPException 400 ("Invalid image data: " ++ str_exn e))).
  { apply embed_image_undecodable; [exact Hr|].
    apply bad_image_bytes with (bs := []); assumption. }
  rewrite H. repeat split; discriminate.
Qed.

(** C6. The declared MIME type is advisory: two image requests with the
    same image field have the same result in every state (in particular in
    every ready state), whatever their [mime_type] fields: the same
    outcome, success with the same embedding or the same error, and the
    same world afterwards, trace included. *)
Theorem mime_type_is_advisory (r1 r2 : ImageEmbeddingRequest) (w : World) :
  image r1 = image r2 ->
  embed_image r1 w = embed_image r2 w.
Proof.
  destruct r1 as [i1 m1], r2 as [i2 m2]. simpl. intros ->.
  reflexivity.
Qed.

(** *** Startup *)

(** The globals after [load_model], step by step: each global is written
    when its own step has succeeded, and never rolled back. *)
Lemma load_model_device (w : World) :
  device (snd (load_model w))
  = match torch_cuda_is_available with
    | Return cuda => Some (device_name cuda)
    | Raise _ => device w
    end.
Proof.
  destruct w as [m p d t]. unfold_py. simpl.
  repeat case_outcome; reflexivity.
Qed.

Lemma load_model_processor (w : World) :
  processor (snd (load_model w))
  = match torch_cuda_is_available,
          CLIPProcessor_from_pretrained MODEL_NAME with
    | Return _, Return p => Some p
    | _, _ => processor w
    end.
Proof.
  destruct w as [m p d t]. unfold_py. simpl.
  repeat case_outcome; reflexivity.
Qed.

Lemma load_model_success (w w' : World) :
  load_model w = (Return tt, w') ->
  exists mdl proc cuda,
    model w' = Some mdl /\ processor w' = Some proc /\
    device w' = Some (device_name cuda).
Proof.
  destruct w as [m p d t]. unfold_py. simpl.
  repeat case_outcome; intros H; inversion H; subst; simpl.
  do 3 eexists. repeat split.
Qed.

Lemma load_model_fails_early (w : World) (e : exn) :
  load_step_fails e ->
  fst (load_model w) = Raise e /\
  model (snd (load_model w)) = model w /\
  exists t, trace (snd (load_model w))
            = (t ++ [LogError ("❌ Failed to load CLIP model: " ++ str_exn e)])%list.
Proof.
  intros Hf. destruct w as [m p d t]. unfold_py. simpl.
  destruct Hf as [H1 | cuda H1 H2 | cuda p0 H1 H2 H3 | cuda p0 m0 H1 H2 H3 H4].
  - rewrite H1. simpl. repeat split. eexists. reflexivity.
  - rewrite H1. simpl. rewrite H2. simpl. repeat split. eexists. reflexivity.
  - rewrite H1. simpl. rewrite H2. simpl. rewrite H3. simpl.
    repeat split. eexists. reflexivity.
  - rewrite H1. simpl. rewrite H2. simpl. rewrite H3. simpl. rewrite H4. simpl.
    repeat split. eexists. reflexivity.
Qed.

(** A failure after line 87 (here: in [model.eval()]) also aborts startup,
    but by then the model handle has been assigned. *)
Lemma load_model_fails_in_eval (w : World) (e : exn) cuda p m0 m :
  torch_cuda_is_available = Return cuda ->
  CLIPProcessor_from_pretrained MODEL_NAME = Return p ->
  CLIPModel_from_pretrained MODEL_NAME = Return m0 ->
  Model_to m0 (Some (device_name cuda)) = Return m ->
  Model_eval m = Raise e ->
  fst (load_model w) = Raise e /\
  model (snd (load_model w)) = Some m.
Proof.
  intros H1 H2 H3 H4 H5. destruct w as [m' p' d' t']. unfold_py. simpl.
  rewrite H1. simpl. rewrite H2. simpl. rewrite H3. simpl.
  rewrite H4. simpl. rewrite H5. simpl. split; reflexivity.
Qed.

(** C4, amended. If device selection, processor load or model load raises,
    [load_model] logs the error and re-raises the same exception, which
    aborts startup, and the model handle is exactly as it was before the
    load began.  The other two globals are not rolled back: the device
    identifier holds the selected device as soon as device selection has
    succeeded, and the processor handle holds the loaded processor as soon
    as the processor load has succeeded; before that each is as it was. *)
Theorem failed_load_leaves_model_unset (w : World) (e : exn) :
  load_step_fails e ->
  let w' := snd (load_model w) in
  fst (load_model w) = Raise e /\
  (exists t, trace w'
             = (t ++ [LogError ("❌ Failed to load CLIP model: " ++ str_exn e)])%list) /\
  model w' = model w /\
  device w' = match torch_cuda_is_available with
              | Return cuda => Some (device_name cuda)
              | Raise _ => device w
              end /\
  processor w' = match torch_cuda_is_available,
                       CLIPProcessor_from_pretrained MODEL_NAME with
                 | Return _, Return p => Some p
                 | _, _ => processor w
                 end.
Proof.
  intros Hf w'.
  destruct (load_model_fails_early w e Hf) as (Hres & Hmodel & Hlog).
  repeat split; try assumption.
  - apply load_model_device.
  - apply load_model_processor.
Qed.

(** *** Health *)



(** *** The published triple *)

Lemma triple_published_same_globals (w w' : World) :
  same_globals w w' -> triple_published w -> triple_published w'.
Proof.
  unfold triple_published. intros (Hm & Hp & Hd) H.
  rewrite <- Hm, <- Hp, <- Hd. exact H.
Qed.

Lemma load_model_keeps_triple (w : World) :
  triple_published w -> triple_published (snd (load_model w)).
Proof.
  unfold triple_published.
  destruct w as [m p d t]. unfold_py. simpl.
  repeat case_outcome; intros H Hm;
    try (split; discriminate);
    try (destruct (H Hm) as [Hp Hd]; split; (assumption || discriminate)).
Qed.

(** C9. In every reachable state, if the model handle is not null then the
    processor handle and the device identifier are not null either:
    [load_model], the only writer, assigns [device] and [processor] before
    it assigns [model], and the handlers write no global. *)
Theorem model_implies_processor_and_device (w : World) :
  reachable w ->
  model w <> None ->
  processor w <> None /\ device w <> None.
Proof.
  intros Hreach. change (triple_published w).
  induction Hreach as [| w _ IH | w _ IH | w r _ IH | w r _ IH].
  - intros Hm. exfalso. apply Hm. reflexivity.
  - apply load_model_keeps_triple. exact IH.
  - rewrite health_check_keeps_world. exact IH.
  - eapply triple_published_same_globals; [apply embed_text_keeps_globals | exact IH].
  - eapply triple_published_same_globals; [apply embed_image_keeps_globals | exact IH].
Qed.

End Properties.

(** * Further properties of the handlers *)

Section HandlerOutcomes.

Context {E : Externals}.

(** *** Server-side failures *)

(** Past the guard, any failure of the text path (preprocessing, move to
    the device, text encoder, empty batch) is logged as an error and
    answered with the 500 condition, whose detail is "Embedding generation
    failed: " followed by the text of the exception; the globals are
    unchanged. *)
Theorem embed_text_failure_gives_500
    (r : TextEmbeddingRequest) (w : World) mdl proc (e : exn) :
  model w = Some mdl ->
  processor w = Some proc ->
  text_inference_fails mdl proc (device w) (text r) e ->
  fst (embed_text r w)
  = Raise (HTTPException 500 ("Embedding generation failed: " ++ str_exn e)) /\
  (exists t, trace (snd (embed_text r w))
             = (t ++ [LogError ("[TEXT] ❌ Error: " ++ str_exn e)])%list) /\
  same_globals w (snd (embed_text r w)).
Proof.
  intros Hm Hp Hf.
  split; [|split; [|apply embed_text_keeps_globals]];
    unfold_py; simpl; rewrite Hm, Hp; simpl;
    destruct Hf as [H1 | enc H1 H2 | enc inputs H1 H2 H3 | enc inputs H1 H2 H3 He];
    unfold text_args in H1; rewrite H1; simpl; try rewrite H2; simpl; try rewrite H3; simpl;
    try (subst e); try reflexivity; eexists; reflexivity.
Qed.

(** Past the guard and past decoding, a failure of the image path
    (preprocessing, move to the device, image encoder, empty batch) with an
    ordinary exception is answered with the 500 condition "Embedding
    generation failed: ...", not with the 400 of a decoding failure; an
    [HTTPException] raised there is re-raised as it is. *)
Theorem embed_image_failure_after_decoding
    (r : ImageEmbeddingRequest) (w : World) mdl proc img (e : exn) :
  model w = Some mdl ->
  processor w = Some proc ->
  decodes (image r) img ->
  image_inference_fails mdl proc (device w) img e ->
  fst (embed_image r w) = Raise (image_error e) /\
  (forall msg, e = Exception msg ->
     fst (embed_image r w)
     = Raise (HTTPException 500 ("Embedding generation failed: " ++ msg)) /\
     exists t, trace (snd (embed_image r w))
               = (t ++ [LogError ("[IMAGE] ❌ Error: " ++ msg)])%list).
Proof.
  intros Hm Hp (bs & opened & Hd1 & Hd2 & Hd3) Hf.
  split; [|intros msg ->; split];
    unfold_py; simpl; rewrite Hm, Hp; simpl;
    rewrite Hd1; simpl; rewrite Hd2; simpl; rewrite Hd3; simpl;
    destruct Hf as [H1 | enc H1 H2 | enc inputs H1 H2 H3 | enc inputs H1 H2 H3 He];
    unfold image_args in H1;
    rewrite H1; simpl; try rewrite H2; simpl; try rewrite H3; simpl;
    try (subst e); try (inversion He; subst);
    try (destruct e; reflexivity); try reflexivity;
    eexists; reflexivity.
Qed.

(** The outcomes of [embed_text], in every state and for every request:
    without a model or a processor it is the 503 condition; with both it is
    a response or the 500 condition "Embedding generation failed: ...".
    So [embed_text] answers 503 exactly when the service is not loaded, and
    never answers 400. *)
Theorem embed_text_outcomes (r : TextEmbeddingRequest) (w : World) :
  (not_loaded w /\
   fst (embed_text r w) = Raise (HTTPException 503 "Model not loaded")) \/
  (ready w /\
   ((exists v, fst (embed_text r w) = Return v) \/
    (exists e, fst (embed_text r w)
               = Raise (HTTPException 500
                          ("Embedding generation failed: " ++ str_exn e))))).
Proof.
  destruct w as [m p d t]. unfold_py. unfold not_loaded, ready. simpl.
  destruct m; destruct p; simpl;
    try (left; split; [auto | reflexivity]).
  right. split; [split; discriminate|].
  repeat case_outcome;
    first [ left; eexists; reflexivity
          | right; eexists; reflexivity
          | right; exists empty_batch_error; reflexivity ].
Qed.

(** A response of either handler is consistent: [dimensions] is the
    length of [embedding]. *)
Theorem response_dimensions_match
    (rt : TextEmbeddingRequest) (ri : ImageEmbeddingRequest) (w : World) :
  (forall v, fst (embed_text rt w) = Return v ->
             dimensions v = length (embedding v)) /\
  (forall v, fst (embed_image ri w) = Return v ->
             dimensions v = length (embedding v)).
Proof.
  destruct w as [m p d t]. unfold_py. simpl.
  split; destruct m; destruct p; simpl; try discriminate;
    repeat case_outcome; intros v H; inversion H; reflexivity.
Qed.

(** *** Successful requests *)

(** [embed_text] returns a response exactly when the guard passes and
    preprocessing, the move of the inputs to the stored device and the text
    encoder (called on the moved inputs) all return, with a batch that has
    a first row; the embedding is then that row with every element divided
    by the norm of the row, and [dimensions] is the length of the row. *)
Theorem embed_text_returns_iff
    (r : TextEmbeddingRequest) (w : World) (v : EmbeddingResponse float) :
  fst (embed_text r w) = Return v <->
  exists mdl proc enc inputs row rest,
    model w = Some mdl /\
    processor w = Some proc /\
    processor_call proc (text_args (text r)) = Return enc /\
    BatchEncoding_to enc (device w) = Return inputs /\
    get_text_features mdl inputs = Return (row :: rest) /\
    v = {| embedding := normalize_row row; dimensions := length row |}.
Proof.
  split.
  - destruct w as [m p d t]. unfold_py. unfold text_args. simpl.
    destruct m as [mdl|]; [|discriminate].
    destruct p as [proc|]; [|discriminate]. simpl.
    repeat case_outcome; intros H; inversion H.
    match goal with
    | Hrow : tensor_div ?a _ = _ :: _ |- _ =>
        rewrite tensor_div_norm_keepdim in Hrow;
        destruct a as [| row rest]; simpl in Hrow; [discriminate|];
        inversion Hrow; subst
    end.
    do 6 eexists.
    split; [reflexivity|]. split; [reflexivity|].
    split; [eassumption|]. split; [eassumption|]. split; [eassumption|].
    rewrite normalize_row_length. reflexivity.
  - intros (mdl & proc & enc & inputs & row & rest
            & Hm & Hp & Henc & Hto & Hfeat & ->).
    eapply embed_text_returns_normalized_row; eassumption.
Qed.

(** [embed_image] returns a response exactly when the guard passes, the
    image field decodes to an RGB image, and preprocessing of that image
    (as a batch of one), the move to the stored device and the image
    encoder all return, with a batch that has a first row; the embedding is
    then that row with every element divided by the norm of the row, and
    [dimensions] is the length of the row. *)
Theorem embed_image_returns_iff
    (r : ImageEmbeddingRequest) (w : World) (v : EmbeddingResponse float) :
  fst (embed_image r w) = Return v <->
  exists mdl proc img enc inputs row rest,
    model w = Some mdl /\
    processor w = Some proc /\
    decodes (image r) img /\
    processor_call proc (image_args img) = Return enc /\
    BatchEncoding_to enc (device w) = Return inputs /\
    get_image_features mdl inputs = Return (row :: rest) /\
    v = {| embedding := normalize_row row; dimensions := length row |}.
Proof.
  split.
  - destruct w as [m p d t]. unfold_py. unfold image_args, decodes. simpl.
    destruct m as [mdl|]; [|discriminate].
    destruct p as [proc|]; [|discriminate]. simpl.
    repeat case_outcome; intros H; inversion H.
    match goal with
    | Hrow : tensor_div ?a _ = _ :: _ |- _ =>
        rewrite tensor_div_norm_keepdim in Hrow;
        destruct a as [| row rest]; simpl in Hrow; [discriminate|];
        inversion Hrow; subst
    end.
    do 7 eexists.
    split; [reflexivity|]. split; [reflexivity|].
    split; [do 2 eexists; repeat split; eassumption|].
    split; [eassumption|]. split; [eassumption|]. split; [eassumption|].
    rewrite normalize_row_length. reflexivity.
  - intros (mdl & proc & img & enc & inputs & row & rest
            & Hm & Hp & (bs & opened & Hd1 & Hd2 & Hd3)
            & Henc & Hto & Hfeat & ->).
    eapply embed_image_returns_normalized_row; eassumption.
Qed.

End HandlerOutcomes.

(** * What a run adds to the trace *)

Lemma py_len_append (a b : string) :
  py_len (a ++ b) = py_len a + py_len b.
Proof.
  induction a as [| c a IH]; simpl; [reflexivity|].
  rewrite IH. destruct (is_continuation c); reflexivity.
Qed.

Lemma py_take_len (n : nat) (s : string) :
  py_len (py_take n s) = Nat.min n (py_len s).
Proof.
  revert n. induction s as [| c s IH]; intros n; simpl.
  - rewrite Nat.min_0_r. reflexivity.
  - destruct (is_continuation c) eqn:Hc; simpl.
    + rewrite Hc. simpl. apply IH.
    + destruct n as [| n]; simpl; [reflexivity|].
      rewrite Hc. simpl. rewrite IH. reflexivity.
Qed.

Lemma py_take_prefix (n : nat) (s : string) :
  prefix (py_take n s) s = true.
Proof.
  revert n. induction s as [| c s IH]; intros n; simpl; [reflexivity|].
  destruct (is_continuation c).
  - simpl. destruct (ascii_dec c c) as [_ | Hc]; [apply IH | congruence].
  - destruct n as [| n]; simpl; [reflexivity|].
    destruct (ascii_dec c c) as [_ | Hc]; [apply IH | congruence].
Qed.

Ltac close_appended :=
  unfold appended; simpl; repeat rewrite <- app_assoc; simpl;
  first [ reflexivity | symmetry; apply app_nil_r ].

Ltac close_prefix n :=
  eexists; exists n; split; [close_appended|];
  split; [reflexivity|];
  try (intros ? ?); first [ discriminate | reflexivity ].

Ltac try_prefixes :=
  first [ solve [close_prefix 0] | solve [close_prefix 1]
        | solve [close_prefix 2] | solve [close_prefix 3]
        | solve [close_prefix 4] | solve [close_prefix 5]
        | solve [close_prefix 6] ].

Section Traces.

Context {E : Externals}.

(** A text request calls the libraries in the order preprocessing, move
    to the device, text encoder, and stops at the first that raises: when
    the guard refuses, the run adds nothing to the trace; past the guard,
    the calls it adds are exactly the steps that returned followed by the
    step that raised, if one did (so each at most once, nothing after a
    failure, never the decoder or the image encoder), and all three when a
    response is returned. *)
Theorem embed_text_call_order (r : TextEmbeddingRequest) (w : World) :
  exists evs,
    appended w (snd (embed_text r w)) evs /\
    (not_loaded w -> evs = []) /\
    calls_of evs
    = match model w, processor w with
      | Some mdl, Some proc =>
        firstn (S (text_steps_returned mdl proc (device w) (text r))) text_calls
      | _, _ => []
      end /\
    (forall v, fst (embed_text r w) = Return v -> calls_of evs = text_calls).
Proof.
  destruct w as [m p d t]. unfold_py.
  unfold text_steps_returned, text_args, not_loaded. simpl.
  destruct m; destruct p; simpl;
    try solve [exists []; split; [close_appended|];
               repeat split; try reflexivity; discriminate].
  repeat case_outcome; eexists; (split; [close_appended|]);
    (split; [intros [H | H]; discriminate|]);
    (split; [reflexivity|]);
    intros v Hv; first [discriminate | reflexivity].
Qed.

(** An image request calls the libraries in the order base64 decoding,
    image opening, RGB conversion, preprocessing, move to the device,
    image encoder, and stops at the first that raises: when the guard
    refuses, the run adds nothing to the trace; past the guard, the calls
    it adds are exactly the steps that returned followed by the step that
    raised, if one did (so each at most once, nothing after a failure,
    never the text encoder), and all six when a response is returned. *)
Theorem embed_image_call_order (r : ImageEmbeddingRequest) (w : World) :
  exists evs,
    appended w (snd (embed_image r w)) evs /\
    (not_loaded w -> evs = []) /\
    calls_of evs
    = match model w, processor w with
      | Some mdl, Some proc =>
        firstn (S (image_steps_returned mdl proc (device w) (image r)))
          image_calls
      | _, _ => []
      end /\
    (forall v, fst (embed_image r w) = Return v -> calls_of evs = image_calls).
Proof.
  destruct w as [m p d t]. unfold_py.
  unfold image_steps_returned, image_args, not_loaded. simpl.
  destruct m; destruct p; simpl;
    try solve [exists []; split; [close_appended|];
               repeat split; try reflexivity; discriminate].
  repeat case_outcome; eexists; (split; [close_appended|]);
    (split; [intros [H | H]; discriminate|]);
    (split; [reflexivity|]);
    intros v Hv; first [discriminate | reflexivity].
Qed.

(** An image that does not decode never reaches the model: in a ready
    state the run adds only decoding calls to the trace, no preprocessing
    and no encoder call, and it logs no error line (the 400 is raised
    without [logger.error]). *)
Theorem undecodable_image_never_reaches_model
    (r : ImageEmbeddingRequest) (w : World) (e : exn) :
  ready w ->
  undecodable (image r) e ->
  exists evs k,
    appended w (snd (embed_image r w)) evs /\
    calls_of evs = firstn k decode_calls /\
    ~ In ProcessorCall (calls_of evs) /\
    ~ In GetImageFeatures (calls_of evs) /\
    errors_of evs = [].
Proof.
  intros Hr Hu.
  destruct (ready_handles w Hr) as (mdl & proc & Hm & Hp).
  destruct w as [m p d t]. simpl in Hm, Hp. subst m p.
  unfold_py. simpl.
  destruct Hu as [H1 | bs H1 H2 | bs im H1 H2 H3].
  - rewrite H1. simpl. eexists. exists 1.
    split; [close_appended|]. simpl.
    repeat split; try reflexivity; intros [H | H]; (discriminate || contradiction).
  - rewrite H1. simpl. rewrite H2. simpl. eexists. exists 2.
    split; [close_appended|]. simpl.
    repeat split; try reflexivity;
      intros [H | [H | H]]; (discriminate || contradiction).
  - rewrite H1. simpl. rewrite H2. simpl. rewrite H3. simpl. eexists. exists 3.
    split; [close_appended|]. simpl.
    repeat split; try reflexivity;
      intros [H | [H | [H | H]]]; (discriminate || contradiction).
Qed.

(** [load_model] calls the libraries in the order device selection,
    processor load, model load, move to the device, eval mode, parameter
    count, and stops at the first that raises: the calls it adds to the
    trace are exactly the steps that returned followed by the step that
    raised, if one did.  It returns exactly when all six steps return, and
    after a failed processor load the weights are not fetched. *)
Theorem load_model_call_order (w : World) :
  exists evs,
    appended w (snd (load_model w)) evs /\
    calls_of evs = firstn (S load_steps_returned) load_calls /\
    (fst (load_model w) = Return tt <-> load_steps_returned = 6) /\
    (forall cuda e,
        torch_cuda_is_available = Return cuda ->
        CLIPProcessor_from_pretrained MODEL_NAME = Raise e ->
        calls_of evs = [CudaIsAvailable; ProcessorFromPretrained] /\
        ~ In ModelFromPretrained (calls_of evs)).
Proof.
  destruct w as [m p d t]. unfold_py. unfold load_steps_returned. simpl.
  repeat case_outcome; eexists; (split; [close_appended|]);
    (split; [reflexivity|]);
    (split; [split; intros H; first [reflexivity | discriminate]|]);
    intros ? ? Hc Hp; try discriminate;
    (split; [reflexivity|]);
    simpl; intros [H | [H | H]]; (discriminate || contradiction).
Qed.

(** Every failure of [load_model], at whichever step, is logged exactly
    once, as the last event of the run, with the text of the exception that
    is raised to the caller; a successful load logs no error. *)
Theorem load_model_logs_failure (w : World) :
  exists evs,
    appended w (snd (load_model w)) evs /\
    match fst (load_model w) with
    | Return _ => errors_of evs = []
    | Raise e =>
      errors_of evs = ["❌ Failed to load CLIP model: " ++ str_exn e] /\
      exists evs', evs = (evs' ++ [LogError ("❌ Failed to load CLIP model: "
                                             ++ str_exn e)])%list
    end.
Proof.
  destruct w as [m p d t]. unfold_py. simpl.
  repeat case_outcome; eexists; (split; [close_appended|]); simpl;
    try reflexivity;
    (split; [reflexivity|]);
    match goal with
    | |- exists evs', ?l = _ => exists (removelast l); reflexivity
    end.
Qed.

(** The request line that [embed_text] logs shows at most the first 50
    characters of the text: past the guard, the first event of the run is
    the info line "[TEXT] Embedding: '<preview>...'", whose preview is the
    initial part of the text made of its first min(50, len(text)) code
    points, so the line has at most 73 characters however long the text
    is. *)
Theorem embed_text_logs_bounded_preview (r : TextEmbeddingRequest) (w : World) :
  ready w ->
  let preview := py_take 50 (text r) in
  let line := "[TEXT] Embedding: '" ++ preview ++ "...'" in
  (exists evs, appended w (snd (embed_text r w)) (LogInfo line :: evs)) /\
  prefix preview (text r) = true /\
  py_len preview = Nat.min 50 (py_len (text r)) /\
  py_len line <= 73.
Proof.
  intros Hr preview line.
  destruct (ready_handles w Hr) as (mdl & proc & Hm & Hp).
  split; [|split; [apply py_take_prefix | split; [apply py_take_len|]]].
  - destruct w as [m p d t]. simpl in Hm, Hp. subst m p.
    unfold_py. simpl.
    repeat case_outcome; eexists; close_appended.
  - unfold line. rewrite !py_len_append.
    unfold preview. rewrite py_take_len.
    change (py_len "[TEXT] Embedding: '") with 19.
    change (py_len "...'") with 4.
    pose proof (Nat.le_min_l 50 (py_len (text r))). lia.
Qed.

End Traces.

(** * The life cycle *)

Section LifeCycle.

Context {E : Externals}.

Lemma ready_same_globals (w w' : World) :
  same_globals w w' -> ready w -> ready w'.
Proof.
  unfold ready. intros (Hm & Hp & _) H. rewrite <- Hm, <- Hp. exact H.
Qed.

Lemma load_model_keeps_ready (w : World) :
  ready w -> ready (snd (load_model w)).
Proof.
  unfold ready. destruct w as [m p d t]. unfold_py. simpl.
  intros [Hm Hp].
  repeat case_outcome; split; (assumption || discriminate).
Qed.

Lemma no_model_gives_503 (w : World)
    (rt : TextEmbeddingRequest) (ri : ImageEmbeddingRequest) :
  model w = None ->
  fst (embed_text rt w) = Raise (HTTPException 503 "Model not loaded") /\
  fst (embed_image ri w) = Raise (HTTPException 503 "Model not loaded").
Proof.
  intros Hm. unfold_py. simpl. rewrite Hm. split; reflexivity.
Qed.

Lemma ready_text_not_503 (rt : TextEmbeddingRequest) (w : World) :
  ready w ->
  fst (embed_text rt w) <> Raise (HTTPException 503 "Model not loaded").
Proof.
  intros Hr. destruct (ready_handles w Hr) as (mdl & proc & Hm & Hp).
  destruct w as [m p d t]. simpl in Hm, Hp. subst m p.
  unfold_py. simpl. repeat case_outcome; discriminate.
Qed.

Lemma ready_image_decodes (ri : ImageEmbeddingRequest) (w : World) :
  ready w ->
  exists line evs,
    appended w (snd (embed_image ri w)) (LogInfo line :: Call B64Decode :: evs).
Proof.
  intros Hr. destruct (ready_handles w Hr) as (mdl & proc & Hm & Hp).
  destruct w as [m p d t]. simpl in Hm, Hp. subst m p.
  unfold_py. simpl. repeat case_outcome; do 2 eexists; close_appended.
Qed.

(** [load_model] returns exactly when all six library calls return, and
    then it has published the processor that was loaded, the model that was
    loaded, moved to the selected device and switched to eval mode, and the
    name of that device. *)
Theorem load_model_succeeds_iff (w : World) :
  fst (load_model w) = Return tt <->
  exists cuda p m0 m m' n,
    torch_cuda_is_available = Return cuda /\
    CLIPProcessor_from_pretrained MODEL_NAME = Return p /\
    CLIPModel_from_pretrained MODEL_NAME = Return m0 /\
    Model_to m0 (Some (device_name cuda)) = Return m /\
    Model_eval m = Return m' /\
    Model_parameters_millions m' = Return n /\
    model (snd (load_model w)) = Some m' /\
    processor (snd (load_model w)) = Some p /\
    device (snd (load_model w)) = Some (device_name cuda).
Proof.
  destruct w as [mw pw dw tw]. split.
  - unfold_py. simpl.
    repeat case_outcome; intros H; try discriminate.
    do 6 eexists. repeat split; eassumption.
  - intros (cuda & p & m0 & m & m' & n & H1 & H2 & H3 & H4 & H5 & H6 & _).
    unfold_py. simpl.
    rewrite H1. simpl. rewrite H2. simpl. rewrite H3. simpl.
    rewrite H4. simpl. rewrite H5. simpl. rewrite H6. reflexivity.
Qed.

(** Readiness is never lost: from a ready state, every operation (a rerun
    of [load_model], whatever its outcome, [health_check] and both
    handlers) leads to a ready state, because no code path assigns [None]
    to a global. *)
Theorem ready_is_kept (w : World) :
  ready w ->
  ready (snd (load_model w)) /\
  ready (snd (health_check w)) /\
  (forall r, ready (snd (embed_text r w))) /\
  (forall r, ready (snd (embed_image r w))).
Proof.
  intros Hr. split; [apply load_model_keeps_ready; exact Hr|].
  split; [rewrite health_check_keeps_world; exact Hr|].
  split; intros r.
  - eapply ready_same_globals; [apply embed_text_keeps_globals | exact Hr].
  - eapply ready_same_globals; [apply embed_image_keeps_globals | exact Hr].
Qed.

(** After a startup that returned, the guard of both handlers passes: no
    text request is answered "503 Model not loaded", and every image
    request is logged and gets as far as base64 decoding. *)
Theorem started_service_accepts_requests (w w' : World) :
  load_model w = (Return tt, w') ->
  ready w' /\
  (forall rt, fst (embed_text rt w')
              <> Raise (HTTPException 503 "Model not loaded")) /\
  (forall ri, exists line evs,
      appended w' (snd (embed_image ri w'))
        (LogInfo line :: Call B64Decode :: evs)).
Proof.
  intros Hload.
  assert (Hr : ready w').
  { destruct (load_model_success w w' Hload) as (mdl & proc & cuda & Hm & Hp & _).
    split; congruence. }
  split; [exact Hr|]. split.
  - intros rt. apply ready_text_not_503. exact Hr.
  - intros ri. apply ready_image_decodes. exact Hr.
Qed.

(** A startup from the initial state that fails in device selection,
    processor load or model load leaves a service that is not ready:
    [health_check] reports "unhealthy" with [model_loaded] false, and both
    handlers answer 503. *)
Theorem failed_startup_is_not_ready (e : exn)
    (rt : TextEmbeddingRequest) (ri : ImageEmbeddingRequest) :
  load_step_fails e ->
  let w' := snd (load_model initial) in
  not_loaded w' /\
  (exists h, fst (health_check w') = Return h /\
             HealthResponse.status h = "unhealthy" /\
             HealthResponse.model_loaded h = false) /\
  fst (embed_text rt w') = Raise (HTTPException 503 "Model not loaded") /\
  fst (embed_image ri w') = Raise (HTTPException 503 "Model not loaded").
Proof.
  intros Hf w'.
  destruct (load_model_fails_early initial e Hf) as (_ & Hm & _).
  fold w' in Hm. simpl in Hm.
  split; [left; exact Hm|]. split.
  - eexists. split; [reflexivity|]. simpl. rewrite Hm. split; reflexivity.
  - apply no_model_gives_503. exact Hm.
Qed.

Lemma load_model_device_known (w : World) :
  device_known (device w) -> device_known (device (snd (load_model w))).
Proof.
  intros H. rewrite load_model_device.
  destruct torch_cuda_is_available as [[|] | e]; unfold device_known; simpl; auto.
Qed.

Lemma reachable_invariant (w : World) :
  reachable w -> device_known (device w) /\ triple_published w.
Proof.
  intros Hreach.
  induction Hreach as [| w _ [IHd IHt] | w _ IH | w r _ [IHd IHt] | w r _ [IHd IHt]].
  - split; [left; reflexivity|]. intros Hm. exfalso. apply Hm. reflexivity.
  - split; [apply load_model_device_known; exact IHd
           | apply load_model_keeps_triple; exact IHt].
  - rewrite health_check_keeps_world. exact IH.
  - pose proof (embed_text_keeps_globals r w) as Hg. split.
    + destruct Hg as (_ & _ & Hd). rewrite <- Hd. exact IHd.
    + eapply triple_published_same_globals; eassumption.
  - pose proof (embed_image_keeps_globals r w) as Hg. split.
    + destruct Hg as (_ & _ & Hd). rewrite <- Hd. exact IHd.
    + eapply triple_published_same_globals; eassumption.
Qed.

(** In every reachable state the global [device] is unset, "cpu" or
    "cuda".  [health_check] therefore reports the device "unknown", "cpu"
    or "cuda", "unknown" exactly when the device is unset, and never
    together with [model_loaded] true. *)
Theorem health_check_reports_device (w : World) :
  reachable w ->
  device_known (device w) /\
  exists h,
    fst (health_check w) = Return h /\
    (HealthResponse.device h = "unknown" /\ device w = None \/
     HealthResponse.device h = "cpu" /\ device w = Some "cpu" \/
     HealthResponse.device h = "cuda" /\ device w = Some "cuda") /\
    (HealthResponse.model_loaded h = true ->
     HealthResponse.device h <> "unknown").
Proof.
  intros Hreach.
  destruct (reachable_invariant w Hreach) as [Hd Ht].
  split; [exact Hd|].
  eexists. split; [reflexivity|]. simpl.
  unfold triple_published in Ht.
  destruct Hd as [Hd | [Hd | Hd]]; rewrite Hd in *; simpl.
  - split; [left; split; reflexivity|].
    destruct (model w); simpl; [|discriminate].
    intros _. exfalso.
    assert (Hn : Some m <> None) by discriminate.
    destruct (Ht Hn) as [_ Hdev]. apply Hdev. reflexivity.
  - split; [right; left; split; reflexivity|]. intros _. discriminate.
  - split; [right; right; split; reflexivity|]. intros _. discriminate.
Qed.

(** The two static endpoints answer in every state, before startup too,
    and leave the world as it is.  What they advertise agrees with the
    rest of the service: the model identifier of [root] is the one
    [health_check] reports, every endpoint [root] lists is a registered
    route, and both examples of [test_page] name registered routes. *)
Theorem static_endpoints_are_consistent (w : World) :
  exists info page h,
    root w = (Return info, w) /\
    test_page w = (Return page, w) /\
    fst (health_check w) = Return h /\
    json_get "model" info = Some (JString (HealthResponse.model_name h)) /\
    (exists eps, json_get "endpoints" info = Some (JObject eps) /\
                 forallb (fun kv => endpoint_registered (snd kv)) eps = true) /\
    example_registered "example_text" page = true /\
    example_registered "example_image" page = true.
Proof.
  do 3 eexists.
  split; [reflexivity|]. split; [reflexivity|]. split; [reflexivity|].
  split; [reflexivity|]. split; [|split; reflexivity].
  eexists. split; reflexivity.
Qed.

End LifeCycle.

(** * What the handlers never do *)

Section Never.

Context {E : Externals}.

(** Whatever the libraries raise, no exception other than an
    [HTTPException] leaves [embed_text] or [embed_image]: every failure of
    a request is turned into an HTTP error response. *)
Theorem handlers_raise_http_only
    (rt : TextEmbeddingRequest) (ri : ImageEmbeddingRequest) (w : World)
    (msg : string) :
  fst (embed_text rt w) <> Raise (Exception msg) /\
  fst (embed_image ri w) <> Raise (Exception msg).
Proof.
  split; [apply embed_text_raises_http_only | apply embed_image_raises_http_only].
Qed.

(** No request writes a global: after [health_check], [embed_text] and
    [embed_image], whatever their outcome, [model], [processor] and
    [device] are what they were; [load_model] is the only writer. *)
Theorem requests_write_no_global
    (rt : TextEmbeddingRequest) (ri : ImageEmbeddingRequest) (w : World) :
  same_globals w (snd (health_check w)) /\
  same_globals w (snd (embed_text rt w)) /\
  same_globals w (snd (embed_image ri w)).
Proof.
  split; [rewrite health_check_keeps_world; apply same_globals_refl|].
  split; [apply embed_text_keeps_globals | apply embed_image_keeps_globals].
Qed.

End Never.

(** * The normalizer in float32 *)

Module Float32Facts.

Local Open Scope Z_scope.











End Float32Facts.

(** * The properties at concrete inputs *)

Lemma toy_ready_is_ready : ready (E := toy) toy_ready.
Proof. split; discriminate. Defined.

Lemma toy_load_succeeds : load_model (E := toy) initial = (Return tt, toy_ready).
Proof. reflexivity. Defined.

(** C2 at the initial state of [toy]: both handlers answer 503 and the
    world, trace included, is the initial one. *)
Lemma not_loaded_gives_503_witness :
  not_loaded (E := toy) initial /\
  embed_text (E := toy) {| text := "a photo of a dog" |} initial
  = (Raise (HTTPException 503 "Model not loaded"), initial) /\
  embed_image (E := toy) {| image := "abcd"; mime_type := default_mime_type |}
    initial
  = (Raise (HTTPException 503 "Model not loaded"), initial).
Proof.
  assert (H : not_loaded (E := toy) initial) by (left; reflexivity).
  split; [exact H|].
  apply (not_loaded_gives_503 (E := toy) initial); exact H.
Defined.

(** C3 without a condition on the state fails before startup: the string
    "abc" does not decode, and the handler answers 503, not 400. *)
Lemma undecodable_image_before_startup_gets_503 :
  let r := {| image := "abc"; mime_type := default_mime_type |} in
  undecodable (E := toy) (image r) (Exception "Incorrect padding") /\
  fst (embed_image (E := toy) r initial)
  = Raise (HTTPException 503 "Model not loaded") /\
  (forall d, fst (embed_image (E := toy) r initial)
             <> Raise (HTTPException 400 d)).
Proof.
  simpl. split; [|split].
  - apply bad_base64. reflexivity.
  - reflexivity.
  - intros d. discriminate.
Qed.

(** C3, amended, at the ready state of [toy] and the string "abc". *)
Lemma undecodable_image_gives_400_witness :
  let r := {| image := "abc"; mime_type := default_mime_type |} in
  ready (E := toy) toy_ready /\
  undecodable (E := toy) (image r) (Exception "Incorrect padding") /\
  fst (embed_image (E := toy) r toy_ready)
  = Raise (HTTPException 400 "Invalid image data: Incorrect padding").
Proof.
  intros r.
  assert (Hu : undecodable (E := toy) (image r) (Exception "Incorrect padding"))
    by (apply bad_base64; reflexivity).
  split; [exact toy_ready_is_ready|]. split; [exact Hu|].
  exact (proj1 (undecodable_image_gives_400 (E := toy) r toy_ready _
                  toy_ready_is_ready Hu)).
Defined.

(** C10 at the ready state of [toy]. *)
Lemma empty_image_gives_400_witness :
  ready (E := toy) toy_ready /\
  base64_b64decode (Externals := toy) "" = Return [] /\
  Image_open (Externals := toy) [] = Raise (Exception "cannot identify image file") /\
  fst (embed_image (E := toy) {| image := ""; mime_type := default_mime_type |}
         toy_ready)
  = Raise (HTTPException 400 "Invalid image data: cannot identify image file").
Proof.
  split; [exact toy_ready_is_ready|]. split; [reflexivity|].
  split; [reflexivity|].
  exact (proj1 (empty_image_gives_400 (E := toy) toy_ready default_mime_type
                  (Exception "cannot identify image file")
                  toy_ready_is_ready eq_refl eq_refl)).
Defined.

(** C6 at the ready state of [toy]: a PNG and a JPEG declaration of the
    same bytes. *)
Lemma mime_type_is_advisory_witness :
  let r1 := {| image := "abcd"; mime_type := "image/png" |} in
  let r2 := {| image := "abcd"; mime_type := "image/jpeg" |} in
  image r1 = image r2 /\
  mime_type r1 <> mime_type r2 /\
  embed_image (E := toy) r1 toy_ready = embed_image (E := toy) r2 toy_ready /\
  fst (embed_image (E := toy) r1 toy_ready)
  = Return {| embedding := [970; 980; 990; 1000]%Z; dimensions := 4 |}.
Proof.
  intros r1 r2.
  split; [reflexivity|]. split; [discriminate|].
  split; [|reflexivity].
  apply (mime_type_is_advisory (E := toy) r1 r2 toy_ready). reflexivity.
Defined.

(** C8 at the ready state of [toy]: the second call returns what the first
    returned. *)
Lemma embed_text_deterministic_witness :
  let r := {| text := "ab" |} in
  let first := embed_text (E := toy) r toy_ready in
  fst first = Return {| embedding := [989; 1000]%Z; dimensions := 2 |} /\
  fst (embed_text (E := toy) r (snd first)) = fst first.
Proof.
  intros r first. split; [reflexivity|].
  exact (proj1 (proj2 (embed_text_deterministic (E := toy) r toy_ready))).
Defined.

(** C4 with all three globals unchanged fails when the preprocessor cannot
    be fetched: the load raises, and the device identifier, unset before the
    load, is "cpu" after it. *)
Lemma failed_load_publishes_device :
  let w' := snd (load_model (E := toy_offline) initial) in
  load_step_fails (E := toy_offline) (Exception "Connection error") /\
  fst (load_model (E := toy_offline) initial)
  = Raise (Exception "Connection error") /\
  device (E := toy_offline) initial = None /\
  device w' = Some "cpu" /\
  device w' <> device (E := toy_offline) initial.
Proof.
  simpl. split; [|split; [|split; [|split]]].
  - apply fails_processor_load with (cuda := false); reflexivity.
  - reflexivity.
  - reflexivity.
  - reflexivity.
  - discriminate.
Qed.

(** C4, amended, on the same host. *)
Lemma failed_load_leaves_model_unset_witness :
  let w' := snd (load_model (E := toy_offline) initial) in
  load_step_fails (E := toy_offline) (Exception "Connection error") /\
  fst (load_model (E := toy_offline) initial)
  = Raise (Exception "Connection error") /\
  model w' = None /\ processor w' = None /\ device w' = Some "cpu".
Proof.
  intros w'.
  assert (Hf : load_step_fails (E := toy_offline) (Exception "Connection error"))
    by (apply fails_processor_load with (cuda := false); reflexivity).
  destruct (failed_load_leaves_model_unset (E := toy_offline) initial _ Hf)
    as (Hres & _ & Hm & Hd & Hp).
  split; [exact Hf|]. split; [exact Hres|].
  split; [exact Hm|]. split; [exact Hp | exact Hd].
Defined.



(** C9 at the ready state of [toy], which is reachable by one startup. *)
Lemma model_implies_processor_and_device_witness :
  reachable (E := toy) toy_ready /\
  model toy_ready <> None /\
  processor toy_ready <> None /\ device toy_ready <> None.
Proof.
  assert (Hr : reachable (E := toy) toy_ready)
    by (apply (reach_load_model (E := toy) initial); apply reach_initial).
  assert (Hm : model toy_ready <> None) by discriminate.
  split; [exact Hr|]. split; [exact Hm|].
  exact (model_implies_processor_and_device (E := toy) toy_ready Hr Hm).
Defined.

(** ** The further properties at concrete inputs *)

Lemma toy_oom_ready_is_ready : ready (E := toy_out_of_memory) toy_oom_ready.
Proof. split; discriminate. Defined.

(** A text request on a host whose encoder runs out of memory. *)
Lemma embed_text_failure_gives_500_witness :
  let r := {| text := "ab" |} in
  text_inference_fails (E := toy_out_of_memory) tt tt (device toy_oom_ready)
    (text r) (Exception "out of memory") /\
  fst (embed_text (E := toy_out_of_memory) r toy_oom_ready)
  = Raise (HTTPException 500 "Embedding generation failed: out of memory").
Proof.
  intros r.
  assert (Hf : text_inference_fails (E := toy_out_of_memory) tt tt
                 (device toy_oom_ready) (text r) (Exception "out of memory"))
    by (eapply text_fails_model; reflexivity).
  split; [exact Hf|].
  exact (proj1 (embed_text_failure_gives_500 (E := toy_out_of_memory)
                  r toy_oom_ready tt tt _ eq_refl eq_refl Hf)).
Defined.

(** An image that decodes, on the same host. *)
Lemma embed_image_failure_after_decoding_witness :
  let r := {| image := "abcd"; mime_type := default_mime_type |} in
  decodes (E := toy_out_of_memory) (image r) (list_ascii_of_string "abcd") /\
  image_inference_fails (E := toy_out_of_memory) tt tt (device toy_oom_ready)
    (list_ascii_of_string "abcd") (Exception "out of memory") /\
  fst (embed_image (E := toy_out_of_memory) r toy_oom_ready)
  = Raise (HTTPException 500 "Embedding generation failed: out of memory").
Proof.
  intros r.
  assert (Hd : decodes (E := toy_out_of_memory) (image r)
                 (list_ascii_of_string "abcd"))
    by (do 2 eexists; repeat split; reflexivity).
  assert (Hf : image_inference_fails (E := toy_out_of_memory) tt tt
                 (device toy_oom_ready) (list_ascii_of_string "abcd")
                 (Exception "out of memory"))
    by (eapply image_fails_model; reflexivity).
  split; [exact Hd|]. split; [exact Hf|].
  exact (proj1 (embed_image_failure_after_decoding (E := toy_out_of_memory)
                  r toy_oom_ready tt tt _ _ eq_refl eq_refl Hd Hf)).
Defined.

Lemma response_dimensions_match_witness :
  let rt := {| text := "ab" |} in
  let ri := {| image := "abcd"; mime_type := default_mime_type |} in
  let vt := {| embedding := [989; 1000]%Z; dimensions := 2 |} in
  let vi := {| embedding := [970; 980; 990; 1000]%Z; dimensions := 4 |} in
  (fst (embed_text (E := toy) rt toy_ready) = Return vt /\
   dimensions vt = length (embedding vt)) /\
  (fst (embed_image (E := toy) ri toy_ready) = Return vi /\
   dimensions vi = length (embedding vi)).
Proof.
  intros rt ri vt vi.
  destruct (response_dimensions_match (E := toy) rt ri toy_ready) as [Ht Hi].
  split; (split; [reflexivity|]).
  - exact (Ht vt eq_refl).
  - exact (Hi vi eq_refl).
Defined.

Lemma embed_text_returns_iff_witness :
  let v := {| embedding := normalize_row (E := toy) [194; 196]%Z;
              dimensions := 2 |} in
  fst (embed_text (E := toy) {| text := "ab" |} toy_ready) = Return v /\
  exists mdl proc enc inputs row rest,
    model toy_ready = Some mdl /\
    processor toy_ready = Some proc /\
    processor_call (Externals := toy) proc (text_args "ab") = Return enc /\
    BatchEncoding_to (Externals := toy) enc (device toy_ready) = Return inputs /\
    get_text_features (Externals := toy) mdl inputs = Return (row :: rest) /\
    v = {| embedding := normalize_row row; dimensions := length row |}.
Proof.
  intros v. split; [reflexivity|].
  exact (proj1 (embed_text_returns_iff (E := toy) {| text := "ab" |}
                  toy_ready v) eq_refl).
Defined.

Lemma embed_image_returns_iff_witness :
  let r := {| image := "abcd"; mime_type := default_mime_type |} in
  let v := {| embedding := normalize_row (E := toy) [194; 196; 198; 200]%Z;
              dimensions := 4 |} in
  fst (embed_image (E := toy) r toy_ready) = Return v /\
  exists mdl proc img enc inputs row rest,
    model toy_ready = Some mdl /\
    processor toy_ready = Some proc /\
    decodes (E := toy) (image r) img /\
    processor_call (Externals := toy) proc (image_args img) = Return enc /\
    BatchEncoding_to (Externals := toy) enc (device toy_ready) = Return inputs /\
    get_image_features (Externals := toy) mdl inputs = Return (row :: rest) /\
    v = {| embedding := normalize_row row; dimensions := length row |}.
Proof.
  intros r v. split; [reflexivity|].
  exact (proj1 (embed_image_returns_iff (E := toy) r toy_ready v) eq_refl).
Defined.

Lemma embed_text_call_order_witness :
  (exists evs,
     appended (E := toy) toy_ready
       (snd (embed_text (E := toy) {| text := "ab" |} toy_ready)) evs /\
     calls_of evs = [ProcessorCall; InputsTo; GetTextFeatures]) /\
  (exists evs,
     appended (E := toy) initial
       (snd (embed_text (E := toy) {| text := "ab" |} initial)) evs /\
     evs = []).
Proof.
  split.
  - destruct (embed_text_call_order (E := toy) {| text := "ab" |} toy_ready)
      as (evs & Ha & _ & _ & Hv).
    exists evs. split; [exact Ha|]. exact (Hv _ eq_refl).
  - destruct (embed_text_call_order (E := toy) {| text := "ab" |} initial)
      as (evs & Ha & Hn & _ & _).
    exists evs. split; [exact Ha|]. apply Hn. left. reflexivity.
Defined.

Lemma embed_image_call_order_witness :
  let good := {| image := "abcd"; mime_type := default_mime_type |} in
  let bad := {| image := "abc"; mime_type := default_mime_type |} in
  (exists evs,
     appended (E := toy) toy_ready
       (snd (embed_image (E := toy) good toy_ready)) evs /\
     calls_of evs = [B64Decode; ImageOpen; ImageConvert;
                     ProcessorCall; InputsTo; GetImageFeatures]) /\
  (exists evs,
     appended (E := toy) toy_ready
       (snd (embed_image (E := toy) bad toy_ready)) evs /\
     calls_of evs = [B64Decode]) /\
  (exists evs,
     appended (E := toy) initial
       (snd (embed_image (E := toy) good initial)) evs /\
     evs = []).
Proof.
  intros good bad. split; [|split].
  - destruct (embed_image_call_order (E := toy) good toy_ready)
      as (evs & Ha & _ & _ & Hv).
    exists evs. split; [exact Ha|]. exact (Hv _ eq_refl).
  - destruct (embed_image_call_order (E := toy) bad toy_ready)
      as (evs & Ha & _ & Hc & _).
    exists evs. split; [exact Ha|]. exact Hc.
  - destruct (embed_image_call_order (E := toy) good initial)
      as (evs & Ha & Hn & _ & _).
    exists evs. split; [exact Ha|]. apply Hn. left. reflexivity.
Defined.

Lemma undecodable_image_never_reaches_model_witness :
  let r := {| image := "abc"; mime_type := default_mime_type |} in
  ready (E := toy) toy_ready /\
  undecodable (E := toy) (image r) (Exception "Incorrect padding") /\
  exists evs,
    appended (E := toy) toy_ready (snd (embed_image (E := toy) r toy_ready)) evs /\
    ~ In GetImageFeatures (calls_of evs).
Proof.
  intros r.
  assert (Hu : undecodable (E := toy) (image r) (Exception "Incorrect padding"))
    by (apply bad_base64; reflexivity).
  split; [exact toy_ready_is_ready|]. split; [exact Hu|].
  destruct (undecodable_image_never_reaches_model (E := toy) r toy_ready _
              toy_ready_is_ready Hu) as (evs & k & Ha & _ & _ & Hn & _).
  exists evs. split; assumption.
Defined.

Lemma load_model_call_order_witness :
  (fst (load_model (E := toy) initial) = Return tt /\
   load_steps_returned (E := toy) = 6) /\
  (torch_cuda_is_available (Externals := toy_offline) = Return false /\
   CLIPProcessor_from_pretrained (Externals := toy_offline) MODEL_NAME
   = Raise (Exception "Connection error") /\
   exists evs,
     appended (E := toy_offline) initial
       (snd (load_model (E := toy_offline) initial)) evs /\
     calls_of evs = [CudaIsAvailable; ProcessorFromPretrained] /\
     ~ In ModelFromPretrained (calls_of evs)).
Proof.
  split.
  - split; [reflexivity|].
    destruct (load_model_call_order (E := toy) initial) as (evs & _ & _ & Hs & _).
    exact (proj1 Hs eq_refl).
  - split; [reflexivity|]. split; [reflexivity|].
    destruct (load_model_call_order (E := toy_offline) initial)
      as (evs & Ha & _ & _ & Hp).
    exists evs. split; [exact Ha|]. exact (Hp _ _ eq_refl eq_refl).
Defined.

Lemma embed_text_logs_bounded_preview_witness :
  let r := {| text := str_repeat "é" 60 |} in
  ready (E := toy) toy_ready /\
  py_len (text r) = 60 /\
  py_take 50 (text r) = str_repeat "é" 50 /\
  py_len (py_take 50 (text r)) = Nat.min 50 (py_len (text r)) /\
  py_len ("[TEXT] Embedding: '" ++ py_take 50 (text r) ++ "...'") <= 73.
Proof.
  intros r.
  split; [exact toy_ready_is_ready|]. split; [reflexivity|].
  split; [reflexivity|].
  exact (proj2 (proj2 (embed_text_logs_bounded_preview (E := toy) r toy_ready
                         toy_ready_is_ready))).
Defined.

Lemma load_model_succeeds_iff_witness :
  fst (load_model (E := toy) initial) = Return tt /\
  exists cuda p m0 m m' n,
    torch_cuda_is_available (Externals := toy) = Return cuda /\
    CLIPProcessor_from_pretrained (Externals := toy) MODEL_NAME = Return p /\
    CLIPModel_from_pretrained (Externals := toy) MODEL_NAME = Return m0 /\
    Model_to (Externals := toy) m0 (Some (device_name cuda)) = Return m /\
    Model_eval (Externals := toy) m = Return m' /\
    Model_parameters_millions (Externals := toy) m' = Return n /\
    model (snd (load_model (E := toy) initial)) = Some m' /\
    processor (snd (load_model (E := toy) initial)) = Some p /\
    device (snd (load_model (E := toy) initial)) = Some (device_name cuda).
Proof.
  split; [reflexivity|].
  exact (proj1 (load_model_succeeds_iff (E := toy) initial) eq_refl).
Defined.

Lemma ready_is_kept_witness :
  ready (E := toy) toy_ready /\
  ready (snd (load_model (E := toy) toy_ready)) /\
  ready (snd (embed_text (E := toy) {| text := "ab" |} toy_ready)).
Proof.
  split; [exact toy_ready_is_ready|].
  destruct (ready_is_kept (E := toy) toy_ready toy_ready_is_ready)
    as (Hl & _ & Ht & _).
  split; [exact Hl | exact (Ht _)].
Defined.

Lemma started_service_accepts_requests_witness :
  load_model (E := toy) initial = (Return tt, toy_ready) /\
  ready (E := toy) toy_ready /\
  fst (embed_text (E := toy) {| text := "ab" |} toy_ready)
  <> Raise (HTTPException 503 "Model not loaded").
Proof.
  split; [exact toy_load_succeeds|].
  destruct (started_service_accepts_requests (E := toy) initial toy_ready
              toy_load_succeeds) as (Hr & Ht & _).
  split; [exact Hr | exact (Ht _)].
Defined.

Lemma failed_startup_is_not_ready_witness :
  let w' := snd (load_model (E := toy_offline) initial) in
  load_step_fails (E := toy_offline) (Exception "Connection error") /\
  not_loaded w' /\
  fst (embed_text (E := toy_offline) {| text := "ab" |} w')
  = Raise (HTTPException 503 "Model not loaded").
Proof.
  intros w'.
  assert (Hf : load_step_fails (E := toy_offline) (Exception "Connection error"))
    by (apply fails_processor_load with (cuda := false); reflexivity).
  split; [exact Hf|].
  destruct (failed_startup_is_not_ready (E := toy_offline) _ {| text := "ab" |}
              {| image := ""; mime_type := default_mime_type |} Hf)
    as (Hn & _ & Ht & _).
  split; [exact Hn | exact Ht].
Defined.

Lemma health_check_reports_device_witness :
  reachable (E := toy) toy_ready /\
  device_known (device toy_ready) /\
  exists h,
    fst (health_check (E := toy) toy_ready) = Return h /\
    HealthResponse.device h = "cpu".
Proof.
  assert (Hr : reachable (E := toy) toy_ready)
    by (apply (reach_load_model (E := toy) initial); apply reach_initial).
  split; [exact Hr|].
  destruct (health_check_reports_device (E := toy) toy_ready Hr)
    as (Hd & h & Hh & _ & _).
  split; [exact Hd|]. eexists. split; reflexivity.
Defined.


